(** * TokenLoyalty: the loyalty accounting kernel of
      [src/app/components/TokenLoyalty.tsx]

    The component keeps six pieces of React state (wallet, programs,
    selected, purchaseUsd, balances, ledger), derives a few values from
    them at every render (activeProgram, activeBalance, earnValueUsd,
    ptsPerDollar, earnPts) and mutates the state from click handlers
    (issuePoints, redeem, addProgram, resetAll, mockConnect).

    Modelling choices.
    - A JavaScript [number] is an IEEE 754 binary64 value: the Standard
      Library's [spec_float] at precision 53 and maximal exponent 1024,
      with its correctly rounded [+], [-], [*], [/], its comparisons (false
      on NaN), NaN, both zeros and both infinities.
    - [balances : Record<string, number>] is a [gmap string number].
    - A handler runs against the state of the render that created it, and
      a render needs [programs.find(...)!] to succeed: [issuePoints] and
      [redeem], which read the derived values, and [step], which fires any
      event, return [None] when the component could not have rendered.
    - [Date.now()], [Math.random().toString(r)] and [Intl.NumberFormat] are
      the host's: the first two are inputs of the handler that reads them,
      the formatter is a variable of the section. *)

From Stdlib Require Import ZArith QArith Qabs Lqa SpecFloat.
From stdpp Require Import gmap strings list fin_maps.

(** ** Numbers *)

Definition number : Type := spec_float.

Definition prec : Z := 53.
Definition emax : Z := 1024.

Definition nan : number := S754_nan.
Definition zero : number := S754_zero false.

(** The binary64 value of an integer literal. *)
Definition num (z : Z) : number := binary_normalize prec emax z 0 false.

Definition add (a b : number) : number := SFadd prec emax a b.
Definition sub (a b : number) : number := SFsub prec emax a b.
Definition mul (a b : number) : number := SFmul prec emax a b.
Definition div (a b : number) : number := SFdiv prec emax a b.

(** [a <= b] and [a < b]; [a > b] is [ltb b a]. *)
Definition leb (a b : number) : bool := SFleb a b.
Definition ltb (a b : number) : bool := SFltb a b.

(** The binary64 value of the decimal literal [n / 10^k], for [n] and
    [10^k] below [2^53]: both are exact and the quotient is correctly
    rounded. *)
Definition dec (n : Z) (k : Z) : number := div (num n) (num (10 ^ k)).

Declare Scope num_scope.
Delimit Scope num_scope with num.
Notation "a + b" := (add a b) : num_scope.
Notation "a - b" := (sub a b) : num_scope.
Notation "a * b" := (mul a b) : num_scope.
Notation "a / b" := (div a b) : num_scope.
Notation "a <= b" := (leb a b = true) : num_scope.
Notation "a < b" := (ltb a b = true) : num_scope.

(** A number as a condition: [0], [-0] and [NaN] are falsy. *)
Definition truthy (x : number) : bool :=
  match x with
  | S754_zero _ | S754_nan => false
  | _ => true
  end.

Definition is_nan (x : number) : bool :=
  match x with S754_nan => true | _ => false end.

Definition is_zero (x : number) : bool :=
  match x with S754_zero _ => true | _ => false end.



(** The number of a non-zero integer of at most 53 bits, exactly: the
    mantissa is shifted up to 53 bits. *)
Definition int_number (s : bool) (p : positive) : number :=
  match (53 - Zpos (digits2_pos p))%Z with
  | Z0 => S754_finite s p 0
  | Zpos k => S754_finite s (p * 2 ^ k)%positive (Zneg k)
  | Zneg _ => binary_round prec emax s p 0
  end.

(** [Math.round]: the nearest integer, halves towards plus infinity; an
    argument in [-0.5, 0) gives [-0]. *)
Definition Math_round (x : number) : number :=
  match x with
  | S754_finite s m (Zneg k) =>
      match ((2 * cond_Zopp s (Zpos m) + 2 ^ Zpos k) / 2 ^ (Zpos k + 1))%Z with
      | Z0 => S754_zero s
      | Zpos p => int_number false p
      | Zneg p => int_number true p
      end
  | _ => x
  end.

(** [Math.max] of two numbers: NaN when either is, and [+0] above [-0]. *)
Definition Math_max (a b : number) : number :=
  match SFcompare a b with
  | None => nan
  | Some Lt => b
  | Some Gt => a
  | Some Eq => match a with S754_zero true => b | _ => a end
  end.

(** [v || 0] for a possibly missing number. *)
Definition or_zero (v : option number) : number :=
  match v with
  | Some x => if truthy x then x else zero
  | None => zero
  end.

(** ** Strings *)

(** [s.slice(a, b)] for [0 <= a <= b]. *)
Definition slice (a b : nat) (s : string) : string :=
  String.substring a (b - a)%nat s.

(** [!s] for a string: only the empty string is falsy. *)
Definition falsy (s : string) : bool :=
  match s with EmptyString => true | _ => false end.

(** The white space [parseInt] skips, among the one-byte characters. *)
Definition is_space (c : Ascii.ascii) : bool :=
  match Ascii.nat_of_ascii c with
  | 9 | 10 | 11 | 12 | 13 | 32 => true
  | _ => false
  end%nat.

Fixpoint skip_spaces (s : string) : string :=
  match s with
  | String c s' => if is_space c then skip_spaces s' else s
  | EmptyString => s
  end.

Definition digit_of (c : Ascii.ascii) : option Z :=
  let n := Z.of_nat (Ascii.nat_of_ascii c) in
  if ((48 <=? n) && (n <=? 57))%Z then Some (n - 48)%Z else None.

(** The integer of the longest prefix of decimal digits, if there is one. *)
Fixpoint leading_digits (s : string) (acc : option Z) : option Z :=
  match s with
  | String c s' =>
      match digit_of c with
      | Some d => leading_digits s' (Some (10 * default 0%Z acc + d)%Z)
      | None => acc
      end
  | EmptyString => acc
  end.

(** [parseInt(s, 10)]: white space, an optional sign, decimal digits; NaN
    when no digit follows. *)
Definition parseInt10 (s : string) : number :=
  let t := skip_spaces s in
  let '(neg, u) :=
    match t with
    | String c u =>
        if Nat.eqb (Ascii.nat_of_ascii c) 45 then (true, u)
        else if Nat.eqb (Ascii.nat_of_ascii c) 43 then (false, u)
        else (false, t)
    | EmptyString => (false, t)
    end in
  match leading_digits u None with
  | None => nan
  | Some z => if neg then SFopp (num z) else num z
  end.

(** ** Types *)

Record Program := mkProgram {
  id : string;
  name : string;
  tokenSymbol : string;
  fixedCentsPerPoint : number;
  earnRatePct : number;
  breakagePct : number
}.

(** [Omit<Program, "id">] *)
Record ProgramDef := mkProgramDef {
  d_name : string;
  d_tokenSymbol : string;
  d_fixedCentsPerPoint : number;
  d_earnRatePct : number;
  d_breakagePct : number
}.

Inductive Network := demo | eth | sol.

Record Wallet := mkWallet {
  address : string;
  network : Network
}.

Inductive RowType := ISSUE | REDEEM.

Record LedgerRow := mkLedgerRow {
  ts : Z;
  type : RowType;
  programId : string;
  amountPts : number;
  amountUsd : number;
  note : option string
}.

(** Demo seed *)
Definition DEMO_PROGRAMS : list Program :=
  [ mkProgram "p1" "Gotham Sports Rewards" "GOTH" (num 100) (num 5) (num 15);
    mkProgram "p2" "Street Child Impact Cash" "IMPT" (num 100) (num 3) (num 0);
    mkProgram "p3" "Kraken Club Cashback" "KRAK" (num 100) (num 4) (num 10) ].

(** [ps[0].id]; the source only reads it from non-empty lists. *)
Definition first_id (ps : list Program) : string :=
  match ps with p :: _ => id p | [] => EmptyString end.

(** The prototype state of the component ([navOpen] is presentation only). *)
Record State := mkState {
  wallet : option Wallet;
  programs : list Program;
  selected : string;
  purchaseUsd : number;
  balances : gmap string number;
  ledger : list LedgerRow
}.

(** The values of the [useState] initialisers. *)
Definition initial : State :=
  mkState None DEMO_PROGRAMS (first_id DEMO_PROGRAMS) (num 120) ∅ [].

(** ** Derived values of a render *)

(** [programs.find(p => p.id === sel)] *)
Definition find_program (ps : list Program) (sel : string) : option Program :=
  List.find (fun p => String.eqb (id p) sel) ps.

Definition activeProgram (st : State) : option Program :=
  find_program (programs st) (selected st).

Definition activeBalance (st : State) : number :=
  or_zero (balances st !! selected st).

Definition earnValueUsd (purchase : number) (p : Program) : number :=
  ((purchase * earnRatePct p) / num 100)%num.

Definition ptsPerDollar (p : Program) : number :=
  (num 100 / fixedCentsPerPoint p)%num.

(** The argument of [Math.round] in [earnPts]. *)
Definition scaledPts (purchase : number) (p : Program) : number :=
  (earnValueUsd purchase p * ptsPerDollar p * num 100)%num.

Definition earnPts (purchase : number) (p : Program) : number :=
  (Math_round (scaledPts purchase p) / num 100)%num.

(** ** Handlers *)

(** What a handler leaves behind: the state of the next render and the
    message of the [alert] it raised, if any. *)
Record Result := mkResult {
  next : State;
  alerted : option string
}.

Definition alert (st : State) (msg : string) : Result := mkResult st (Some msg).
Definition done_ (st : State) : Result := mkResult st None.

Definition network_prefix (n : Network) : string :=
  match n with sol => "SoL" | eth => "0x" | demo => "demo" end.

(** [mockConnect]; [r1] and [r2] are the two [Math.random().toString(16)]. *)
Definition mockConnect (n : Network) (r1 r2 : string) (st : State) : State :=
  let addr := network_prefix n +:+ slice 2 10 r1 +:+ slice 2 6 r2 in
  mkState (Some (mkWallet addr n)) (programs st) (selected st)
          (purchaseUsd st) (balances st) (ledger st).

(** The program form's fields ([useState] of [ProgramForm]). *)
Record Form := mkForm {
  f_name : string;
  f_symbol : string;
  f_value : number;
  f_earn : number;
  f_breakage : number
}.

(** What the cents field stores for a typed text:
    [setValue(parseInt(e.target.value || "0", 10))]. *)
Definition cents_field (text : string) : number :=
  parseInt10 (if falsy text then "0" else text).

(** [addProgram]; [rnd] is [Math.random().toString(36)]. *)
Definition addProgram (p : ProgramDef) (rnd : string) (st : State) : State :=
  let id := "p" +:+ slice 2 7 rnd in
  mkState (wallet st)
          (mkProgram id (d_name p) (d_tokenSymbol p) (d_fixedCentsPerPoint p)
                     (d_earnRatePct p) (d_breakagePct p) :: programs st)
          id (purchaseUsd st) (balances st) (ledger st).

(** The click handler of [ProgramForm], with [onCreate = addProgram]. *)
Definition createProgram (f : Form) (rnd : string) (st : State) : Result :=
  if falsy (f_name f) || falsy (f_symbol f) then alert st "Name & symbol required"
  else done_ (addProgram (mkProgramDef (f_name f) (f_symbol f)
                                       (Math_max (num 1) (f_value f))
                                       (Math_max (num 0) (f_earn f))
                                       (Math_max (num 0) (f_breakage f))) rnd st).

Definition resetAll (st : State) : State :=
  mkState None DEMO_PROGRAMS (first_id DEMO_PROGRAMS) (purchaseUsd st) ∅ [].

Section Host.

(** [fmt.format], the host's currency formatter. *)
Variable fmt_format : number -> string.

Definition issuePoints (now : Z) (st : State) : option Result :=
  match activeProgram st with
  | None => None
  | Some ap =>
    Some
      (match wallet st with
       | None => alert st "Connect a wallet first (mock)."
       | Some _ =>
         if leb (purchaseUsd st) zero then alert st "Enter a purchase amount > 0."
         else
           let pts := earnPts (purchaseUsd st) ap in
           let next := <[selected st := add (or_zero (balances st !! selected st)) pts]>
                         (balances st) in
           done_ (mkState (wallet st) (programs st) (selected st) (purchaseUsd st)
                    next
                    (mkLedgerRow now ISSUE (selected st) pts
                       (earnValueUsd (purchaseUsd st) ap)
                       (Some ("Purchase " +:+ fmt_format (purchaseUsd st)))
                     :: ledger st))
       end)
  end.

Definition redeem (pts : number) (now : Z) (st : State) : option Result :=
  match activeProgram st with
  | None => None
  | Some ap =>
    Some
      (match wallet st with
       | None => alert st "Connect a wallet first (mock)."
       | Some _ =>
         if leb pts zero then alert st "Enter a positive amount."
         else if ltb (activeBalance st) pts then alert st "Not enough balance."
         else
           let usd := div pts (ptsPerDollar ap) in
           let next := <[selected st := sub (activeBalance st) pts]> (balances st) in
           done_ (mkState (wallet st) (programs st) (selected st) (purchaseUsd st)
                    next
                    (mkLedgerRow now REDEEM (selected st) pts usd
                       (Some "Checkout (gift card / bill credit)")
                     :: ledger st))
       end)
  end.

(** ** The events of a session *)

Inductive Event :=
| Connect (n : Network) (r1 r2 : string)
| Disconnect
| SelectProgram (i : nat)
| SetPurchase (v : option number)
| IssueClick (now : Z)
| RedeemClick (pts : number) (now : Z)
| CreateClick (f : Form) (rnd : string)
| ResetClick.

(** One event against the current render.  [SelectProgram i] picks the
    [i]-th [<option>] of the program selector, whose value is that
    program's id; [SetPurchase v] is [setPurchaseUsd(parseFloat(..) || 0)]
    with [v = None] for an unparsable field. *)
Definition step (e : Event) (st : State) : option Result :=
  match activeProgram st with
  | None => None
  | Some _ =>
    match e with
    | Connect n r1 r2 => Some (done_ (mockConnect n r1 r2 st))
    | Disconnect =>
        Some (done_ (mkState None (programs st) (selected st) (purchaseUsd st)
                       (balances st) (ledger st)))
    | SelectProgram i =>
        match programs st !! i with
        | Some p => Some (done_ (mkState (wallet st) (programs st) (id p)
                                   (purchaseUsd st) (balances st) (ledger st)))
        | None => None
        end
    | SetPurchase v =>
        Some (done_ (mkState (wallet st) (programs st) (selected st) (or_zero v)
                       (balances st) (ledger st)))
    | IssueClick now => issuePoints now st
    | RedeemClick pts now => redeem pts now st
    | CreateClick f rnd => Some (createProgram f rnd st)
    | ResetClick => Some (done_ (resetAll st))
    end
  end.

(** The states a session can be in. *)
Inductive reachable : State -> Prop :=
| reachable_initial : reachable initial
| reachable_step e st r :
    reachable st -> step e st = Some r -> reachable (next r).

End Host.

Open Scope num_scope.

(** ** The rest of the page *)

(** [short], over the code units of a string; [ellipsis] is the one code
    unit of the horizontal ellipsis.  [s.slice(-4)] starts 4 units before
    the end, or at the start of a shorter string. *)
Definition short {U : Type} (ellipsis : U) (s : list U) : list U :=
  if (length s <=? 10)%nat then s
  else take 6 s ++ ellipsis :: drop (length s - 4)%nat s.

(** The fields of [ProgramForm] before anything is typed. *)
Definition form_default : Form :=
  mkForm EmptyString EmptyString (num 100) (num 5) (num 10).

(** The whole click handler of [ProgramForm]: the outcome for the page and
    the form's fields afterwards (reset only after [onCreate]). *)
Definition programFormClick (f : Form) (rnd : string) (st : State) : Result * Form :=
  (createProgram f rnd st,
   if falsy (f_name f) || falsy (f_symbol f) then f else form_default).

(** A sequence of events, one render after the other. *)
Fixpoint run (fmt : number -> string) (es : list Event) (st : State) : option State :=
  match es with
  | [] => Some st
  | e :: es' =>
      match step fmt e st with
      | Some r => run fmt es' (next r)
      | None => None
      end
  end.

(** ** Predicates of the specification *)

Definition known (ps : list Program) (i : string) : Prop := i ∈ map id ps.

Record session_inv (st : State) : Prop := mk_session_inv {
  inv_selected : known (programs st) (selected st);
  inv_ledger : Forall (fun row => known (programs st) (programId row)) (ledger st)
}.

(** The balance entry of program [k] that the rows of a ledger (newest
    first) produce when they are applied oldest first, each with the
    handler's own arithmetic. *)
Fixpoint replay (k : string) (l : list LedgerRow) : option number :=
  match l with
  | [] => None
  | row :: older =>
      if String.eqb (programId row) k then
        Some (match type row with
              | ISSUE => or_zero (replay k older) + amountPts row
              | REDEEM => or_zero (replay k older) - amountPts row
              end)
      else replay k older
  end.

Record books_inv (st : State) : Prop := mk_books_inv {
  inv_replay : forall k : string, balances st !! k = replay k (ledger st);
  inv_keys : forall k : string, is_Some (balances st !! k) -> known (programs st) k;
  inv_seed : DEMO_PROGRAMS `suffix_of` programs st
}.

(** ** Concrete sessions and forms *)

(** A formatter and a connected session to run the handlers on. *)
Definition fmt_plain (q : number) : string := "$".

Definition connected : State :=
  mockConnect demo "0.8f3a21c9d4e7" "0.5b7e1a02c3" initial.

(** The session after one purchase of 120 in the first seed program. *)
Definition funded : State :=
  match issuePoints fmt_plain 1700000000000 connected with
  | Some r => next r
  | None => connected
  end.

(** The session a list of events leads to from the initial state. *)
Definition session_of (es : list Event) : State :=
  default initial (run fmt_plain es initial).

Definition form_owls : Form := mkForm "Night Owls" "OWL" (num 50) (num 2) (num 5).
Definition form_low_values : Form :=
  mkForm "Night Owls" "OWL" (num (-3)) (SFopp (dec 5 1)) (num (-7)).

(** The form after [.5] is typed into the cents field. *)
Definition form_half_cent : Form :=
  mkForm "Half Cents" "HALF" (cents_field ".5") (num 5) (num 10).

(** That program created, a wallet connected, one purchase of 120. *)
Definition session_half_cent : State :=
  session_of [CreateClick form_half_cent "0.h4lfc3nt9x";
              Connect demo "0.8f3a21c9d4e7" "0.5b7e1a02c3";
              IssueClick 10].

(** Two purchases in two seed programs and one redemption in the second. *)
Definition session_two_programs : State :=
  session_of [Connect eth "0.c0ffee1234ab" "0.9d8c7b6a";
              IssueClick 10; SelectProgram 1; SetPurchase (Some (num 250));
              IssueClick 20; RedeemClick (dec 15 1) 30].

(** A connected session whose purchase field holds five cents. *)
Definition session_five_cents : State :=
  session_of [Connect demo "0.8f3a21c9d4e7" "0.5b7e1a02c3";
              SetPurchase (Some (dec 5 2))].

(** Two programs created from the same random draw. *)
Definition session_same_draw : State :=
  session_of [CreateClick form_owls "0.k3v9xq2m7";
              CreateClick (mkForm "Early Birds" "BIRD" (num 25) (num 1) (num 0))
                          "0.k3v9xq2m7"].

(** One purchase, then the wallet disconnected. *)
Definition session_disconnected : State :=
  session_of [Connect demo "0.8f3a21c9d4e7" "0.5b7e1a02c3"; IssueClick 10; Disconnect].



(** ** Facts about numbers *)

Lemma SFcompare_antisym (a b : number) :
  SFcompare b a = option_map CompOpp (SFcompare a b).
Proof.
  destruct a as [s|s| |s m e], b as [s'|s'| |s' m' e']; simpl;
    try reflexivity; try (destruct s, s'; reflexivity);
    try (destruct s; reflexivity); try (destruct s'; reflexivity).
  assert (H : Pos.compare_cont Eq m' m = CompOpp (Pos.compare_cont Eq m m'))
    by (symmetry; apply (Pos.compare_cont_antisym m m' Eq)).
  destruct s, s'; simpl; try reflexivity;
    rewrite (Z.compare_antisym e e'); destruct (e ?= e')%Z; simpl;
    try reflexivity;
    rewrite H; destruct (Pos.compare_cont Eq m m'); reflexivity.
Qed.

Lemma leb_not_gt (a b : number) : a <= b -> ltb b a = false.
Proof.
  unfold leb, ltb, SFleb, SFltb. rewrite (SFcompare_antisym a b).
  destruct (SFcompare a b) as [[]|]; simpl; congruence.
Qed.

Lemma ltb_not_le (a b : number) : a < b -> leb b a = false.
Proof.
  unfold leb, ltb, SFleb, SFltb. rewrite (SFcompare_antisym a b).
  destruct (SFcompare a b) as [[]|]; simpl; congruence.
Qed.

Lemma SFcompare_refl (a : number) : is_nan a = false -> SFcompare a a = Some Eq.
Proof.
  destruct a as [s|s| |s m e]; simpl; try reflexivity; try discriminate.
  - by destruct s.
  - intros _. destruct s; rewrite Z.compare_refl, Pos.compare_cont_refl; reflexivity.
Qed.

Lemma SFcompare_None (a b : number) :
  SFcompare a b = None -> is_nan a = true \/ is_nan b = true.
Proof.
  destruct a as [s|s| |s m e], b as [s'|s'| |s' m' e']; simpl; auto; discriminate.
Qed.

(** Above a number above zero, a number is positive: it is truthy and
    adding it to zero gives it back. *)
Lemma above_positive (a b : number) :
  zero < a -> a <= b -> truthy b = true /\ zero + b = b.
Proof.
  destruct a as [s|s| |s m e], b as [s'|s'| |s' m' e'];
    try destruct s; try destruct s'; cbn; intros H1 H2;
    try discriminate; split; reflexivity.
Qed.

Lemma or_zero_idem (v : option number) : or_zero (Some (or_zero v)) = or_zero v.
Proof.
  destruct v as [x|]; simpl; [|reflexivity].
  destruct (truthy x) eqn:E; simpl; [by rewrite E|reflexivity].
Qed.

Lemma or_zero_plus_zero (v : option number) (z : number) :
  is_zero z = true -> or_zero v + z = or_zero v.
Proof.
  destruct z as [s| | |]; try discriminate. intros _.
  destruct v as [x|]; simpl; [|by destruct s].
  destruct x as [s'|s'| |s' m' e']; simpl; try reflexivity; by destruct s.
Qed.

Lemma find_program_id (ps : list Program) (sel : string) (p : Program) :
  find_program ps sel = Some p -> id p = sel /\ p ∈ ps.
Proof.
  unfold find_program. intros H. apply find_some in H as [Hin Heq].
  apply String.eqb_eq in Heq. split; [exact Heq|]. by apply list_elem_of_In.
Qed.

Lemma find_program_is_Some (ps : list Program) (sel : string) :
  sel ∈ map id ps -> is_Some (find_program ps sel).
Proof.
  unfold find_program. induction ps as [|p ps IH]; simpl.
  - intros H. by apply elem_of_nil in H.
  - intros H. destruct (String.eqb (id p) sel) eqn:E; [by eexists|].
    apply elem_of_cons in H as [->|H]; [|by apply IH].
    by rewrite String.eqb_refl in E.
Qed.

Lemma find_program_head (p : Program) (ps : list Program) (k : string) :
  id p = k -> find_program (p :: ps) k = Some p.
Proof. intros <-. unfold find_program. simpl. by rewrite String.eqb_refl. Qed.

Lemma falsy_iff (s : string) : falsy s = true <-> s = EmptyString.
Proof. destruct s; simpl; split; congruence. Qed.

(** ** The handlers on their accepting paths *)

Lemma issuePoints_applied
    (fmt : number -> string) (now : Z) (st : State) (w : Wallet) (ap : Program) :
  wallet st = Some w ->
  activeProgram st = Some ap ->
  zero < purchaseUsd st ->
  issuePoints fmt now st =
    Some (done_ (mkState (wallet st) (programs st) (selected st) (purchaseUsd st)
                   (<[selected st := activeBalance st + earnPts (purchaseUsd st) ap]>
                      (balances st))
                   (mkLedgerRow now ISSUE (selected st)
                      (earnPts (purchaseUsd st) ap)
                      (earnValueUsd (purchaseUsd st) ap)
                      (Some ("Purchase " +:+ fmt (purchaseUsd st)))
                    :: ledger st))).
Proof.
  intros Hw Hap Hpos. unfold issuePoints. rewrite Hap, Hw.
  apply ltb_not_le in Hpos. rewrite Hpos. reflexivity.
Qed.

Lemma redeem_applied
    (now : Z) (p : number) (st : State) (w : Wallet) (ap : Program) :
  wallet st = Some w ->
  activeProgram st = Some ap ->
  zero < p ->
  p <= activeBalance st ->
  redeem p now st =
    Some (done_ (mkState (wallet st) (programs st) (selected st) (purchaseUsd st)
                   (<[selected st := activeBalance st - p]> (balances st))
                   (mkLedgerRow now REDEEM (selected st) p (p / ptsPerDollar ap)
                      (Some "Checkout (gift card / bill credit)")
                    :: ledger st))).
Proof.
  intros Hw Hap Hpos Hle. unfold redeem. rewrite Hap, Hw.
  apply ltb_not_le in Hpos. rewrite Hpos.
  apply leb_not_gt in Hle. rewrite Hle. reflexivity.
Qed.

(** ** Issuing *)



(** ** Rejected calls *)

(** C2. A call of [issuePoints] without a wallet or with a purchase amount
    of 0 or less, and a call of [redeem] without a wallet, with 0 points or
    less, or with more points than the selected program's balance, raises
    an alert and returns the state it was given: balances and ledger are
    untouched.  Every call either does that or applies in full (no alert,
    one new balance for the selected program, one new ledger row). *)
Theorem rejected_calls_mutate_nothing
    (fmt : number -> string) (now : Z) (pts : number) (st : State) (ap : Program) :
  activeProgram st = Some ap ->
  ((wallet st = None \/ purchaseUsd st <= zero) ->
     exists msg : string, issuePoints fmt now st = Some (mkResult st (Some msg))) /\
  ((wallet st = None \/ pts <= zero \/ activeBalance st < pts) ->
     exists msg : string, redeem pts now st = Some (mkResult st (Some msg))) /\
  (exists r : Result, issuePoints fmt now st = Some r /\
     ((next r = st /\ is_Some (alerted r)) \/
      (alerted r = None /\
       (exists b : number, balances (next r) = <[selected st := b]> (balances st)) /\
       (exists row : LedgerRow, ledger (next r) = row :: ledger st)))) /\
  (exists r : Result, redeem pts now st = Some r /\
     ((next r = st /\ is_Some (alerted r)) \/
      (alerted r = None /\
       (exists b : number, balances (next r) = <[selected st := b]> (balances st)) /\
       (exists row : LedgerRow, ledger (next r) = row :: ledger st)))).
Proof.
  intros Hap. unfold issuePoints, redeem. rewrite Hap.
  repeat split.
  - intros [Hw|Hle].
    + rewrite Hw. by eexists.
    + destruct (wallet st); [|by eexists].
      rewrite Hle. by eexists.
  - intros [Hw|[Hle|Hgt]].
    + rewrite Hw. by eexists.
    + destruct (wallet st); [|by eexists].
      rewrite Hle. by eexists.
    + destruct (wallet st); [|by eexists].
      destruct (leb pts zero); [by eexists|].
      rewrite Hgt. by eexists.
  - eexists. split; [reflexivity|].
    destruct (wallet st); [|left; split; [done|by eexists]].
    destruct (leb (purchaseUsd st) zero); [left; split; [done|by eexists]|].
    right. simpl. split; [done|]. split; by eexists.
  - eexists. split; [reflexivity|].
    destruct (wallet st); [|left; split; [done|by eexists]].
    destruct (leb pts zero); [left; split; [done|by eexists]|].
    destruct (ltb (activeBalance st) pts);
      [left; split; [done|by eexists]|].
    right. simpl. split; [done|]. split; by eexists.
Qed.

Lemma rejected_calls_mutate_nothing_witness :
  (exists msg : string,
     issuePoints fmt_plain 0 initial = Some (mkResult initial (Some msg))) /\
  (exists msg : string,
     redeem (num 1) 0 connected = Some (mkResult connected (Some msg))).
Proof.
  split.
  - apply (rejected_calls_mutate_nothing fmt_plain 0 (num 1) initial
             (mkProgram "p1" "Gotham Sports Rewards" "GOTH" (num 100) (num 5) (num 15))
             eq_refl).
    left. reflexivity.
  - apply (rejected_calls_mutate_nothing fmt_plain 0 (num 1) connected
             (mkProgram "p1" "Gotham Sports Rewards" "GOTH" (num 100) (num 5) (num 15))
             eq_refl).
    right. right. reflexivity.
Defined.

(** ** Redeeming *)

(** C3. With a wallet connected and [0 < p <= activeBalance], [redeem p]
    raises no alert, sets the selected program's balance to its previous
    value minus [p], leaves every other balance alone, and puts exactly one
    new row in front of the ledger: a REDEEM row for the selected program
    with [amountPts = p] and [amountUsd = p / (100 / fixedCentsPerPoint)]. *)
Theorem redeem_debits_points
    (now : Z) (p : number) (st : State) (w : Wallet) (ap : Program) :
  wallet st = Some w ->
  activeProgram st = Some ap ->
  zero < p ->
  p <= activeBalance st ->
  exists (r : Result) (row : LedgerRow),
    redeem p now st = Some r /\
    alerted r = None /\
    balances (next r) !! selected st = Some (activeBalance st - p) /\
    (forall k : string, k <> selected st ->
       balances (next r) !! k = balances st !! k) /\
    ledger (next r) = row :: ledger st /\
    type row = REDEEM /\
    programId row = selected st /\
    amountPts row = p /\
    amountUsd row = p / (num 100 / fixedCentsPerPoint ap).
Proof.
  intros Hw Hap Hpos Hle.
  rewrite (redeem_applied now p st w ap Hw Hap Hpos Hle).
  eexists _, _. split; [reflexivity|]. simpl.
  split; [reflexivity|].
  split; [apply lookup_insert_eq|].
  split; [intros k Hk; by apply lookup_insert_ne|].
  repeat split.
Qed.

Lemma redeem_debits_points_witness :
  exists (r : Result) (row : LedgerRow),
    redeem (num 6) 1700000000001 funded = Some r /\
    balances (next r) !! "p1" = Some zero /\
    type row = REDEEM /\ amountPts row = num 6 /\ amountUsd row = num 6 /\
    length (ledger (next r)) = 2%nat.
Proof.
  destruct (redeem_debits_points 1700000000001 (num 6) funded
              (mkWallet "demo8f3a21c95b7e" demo)
              (mkProgram "p1" "Gotham Sports Rewards" "GOTH" (num 100) (num 5) (num 15))
              eq_refl eq_refl eq_refl)
    as (r & row & Hr & _ & Hb & _ & Hl & Ht & _ & Hp & Hu).
  { vm_compute. reflexivity. }
  exists r, row.
  split; [exact Hr|].
  split; [refine (eq_trans Hb _); vm_compute; reflexivity|].
  split; [exact Ht|]. split; [exact Hp|].
  split; [rewrite Hu; vm_compute; reflexivity|].
  rewrite Hl. reflexivity.
Defined.

(** ** Rounding to the nearest integer *)





(** ** Round trip *)




(** ** Conservation *)

(** C5. Starting from a balance of 0 for the selected program, with a
    wallet connected, an issue that credits [pts1 = earnPts] followed by a
    redeem of [pts2] with [0 < pts2 <= pts1] both apply, and leave the
    selected program's balance at [pts1 - pts2]. *)
Theorem issue_then_redeem_conserves
    (fmt : number -> string) (now1 now2 : Z) (pts2 : number)
    (st : State) (w : Wallet) (ap : Program) :
  wallet st = Some w ->
  activeProgram st = Some ap ->
  zero < purchaseUsd st ->
  activeBalance st = zero ->
  zero < pts2 ->
  pts2 <= earnPts (purchaseUsd st) ap ->
  exists (r1 r2 : Result) (b : number),
    issuePoints fmt now1 st = Some r1 /\ alerted r1 = None /\
    redeem pts2 now2 (next r1) = Some r2 /\ alerted r2 = None /\
    balances (next r2) !! selected st = Some b /\
    b = earnPts (purchaseUsd st) ap - pts2.
Proof.
  intros Hw Hap Hpos Hzero Hpts2 Hle.
  set (pts1 := earnPts (purchaseUsd st) ap) in *.
  destruct (above_positive pts2 pts1 Hpts2 Hle) as [Htruthy Hadd].
  pose proof (issuePoints_applied fmt now1 st w ap Hw Hap Hpos) as Hi.
  fold pts1 in Hi. rewrite Hzero, Hadd in Hi.
  set (st1 := mkState (wallet st) (programs st) (selected st) (purchaseUsd st)
                (<[selected st := pts1]> (balances st))
                (mkLedgerRow now1 ISSUE (selected st) pts1
                   (earnValueUsd (purchaseUsd st) ap)
                   (Some ("Purchase " +:+ fmt (purchaseUsd st)))
                 :: ledger st)) in *.
  assert (Hb1 : activeBalance st1 = pts1).
  { unfold activeBalance. simpl. rewrite lookup_insert_eq. simpl.
    by rewrite Htruthy. }
  assert (Hle1 : pts2 <= activeBalance st1) by (by rewrite Hb1).
  pose proof (redeem_applied now2 pts2 st1 w ap Hw Hap Hpts2 Hle1) as Hr.
  eexists _, _, _. split; [exact Hi|]. split; [reflexivity|].
  split; [exact Hr|]. split; [reflexivity|].
  split; [simpl; apply lookup_insert_eq|].
  by rewrite Hb1.
Qed.

Lemma issue_then_redeem_conserves_witness :
  exists (r1 r2 : Result),
    issuePoints fmt_plain 10 connected = Some r1 /\
    redeem (dec 25 1) 20 (next r1) = Some r2 /\
    balances (next r2) !! "p1" = Some (dec 35 1).
Proof.
  destruct (issue_then_redeem_conserves fmt_plain 10 20 (dec 25 1) connected
              (mkWallet "demo8f3a21c95b7e" demo)
              (mkProgram "p1" "Gotham Sports Rewards" "GOTH" (num 100) (num 5) (num 15))
              eq_refl eq_refl eq_refl)
    as (r1 & r2 & b & H1 & _ & H2 & _ & Hb & Hq).
  - reflexivity.
  - vm_compute. reflexivity.
  - vm_compute. reflexivity.
  - exists r1, r2. split; [exact H1|]. split; [exact H2|].
    refine (eq_trans Hb _). rewrite Hq. vm_compute. reflexivity.
Defined.

(** ** Invariants of a session *)

Lemma session_inv_initial : session_inv initial.
Proof.
  split; simpl.
  - unfold known. simpl. set_solver.
  - constructor.
Qed.

Lemma session_inv_reset (st : State) : session_inv (resetAll st).
Proof.
  split; simpl.
  - unfold known. simpl. set_solver.
  - constructor.
Qed.

Lemma session_inv_issue (fmt : number -> string) (now : Z) (st : State) (r : Result) :
  session_inv st -> issuePoints fmt now st = Some r -> session_inv (next r).
Proof.
  intros [Hs Hl]. unfold issuePoints.
  destruct (activeProgram st) as [ap|]; [|discriminate].
  destruct (wallet st); [|intros [= <-]; by split].
  destruct (leb (purchaseUsd st) zero); [intros [= <-]; by split|].
  intros [= <-]. split; simpl; [assumption|]. by constructor.
Qed.

Lemma session_inv_redeem (pts : number) (now : Z) (st : State) (r : Result) :
  session_inv st -> redeem pts now st = Some r -> session_inv (next r).
Proof.
  intros [Hs Hl]. unfold redeem.
  destruct (activeProgram st) as [ap|]; [|discriminate].
  destruct (wallet st); [|intros [= <-]; by split].
  destruct (leb pts zero); [intros [= <-]; by split|].
  destruct (ltb (activeBalance st) pts); [intros [= <-]; by split|].
  intros [= <-]. split; simpl; [assumption|]. by constructor.
Qed.

Lemma session_inv_create (f : Form) (rnd : string) (st : State) :
  session_inv st -> session_inv (next (createProgram f rnd st)).
Proof.
  intros [Hs Hl]. unfold createProgram.
  destruct (falsy (f_name f) || falsy (f_symbol f)); [by split|].
  split; simpl.
  - unfold known. simpl. set_solver.
  - eapply Forall_impl; [exact Hl|]. unfold known. simpl.
    intros row Hrow. apply elem_of_cons. by right.
Qed.

Lemma session_inv_step (fmt : number -> string) (e : Event) (st : State) (r : Result) :
  session_inv st -> step fmt e st = Some r -> session_inv (next r).
Proof.
  intros Hinv. unfold step.
  destruct (activeProgram st) as [ap|] eqn:Hap; [|discriminate].
  destruct e as [n r1 r2| |i|v|now|pts now|f rnd|].
  - intros [= <-]. destruct Hinv. by split.
  - intros [= <-]. destruct Hinv. by split.
  - destruct (programs st !! i) as [p|] eqn:Hi; [|discriminate].
    intros [= <-]. destruct Hinv. split; simpl; try assumption.
    unfold known. apply list_elem_of_fmap. exists p. split; [done|].
    apply list_elem_of_lookup. by exists i.
  - intros [= <-]. destruct Hinv. by split.
  - by apply session_inv_issue.
  - by apply session_inv_redeem.
  - intros [= <-]. by apply session_inv_create.
  - intros [= <-]. apply session_inv_reset.
Qed.

Lemma reachable_session_inv (fmt : number -> string) (st : State) :
  reachable fmt st -> session_inv st.
Proof.
  induction 1 as [|e st r _ IH Hstep].
  - exact session_inv_initial.
  - by eapply session_inv_step.
Qed.

Lemma reachable_step_defined (fmt : number -> string) (e : Event) (st : State) :
  reachable fmt st ->
  (forall i : nat, e = SelectProgram i -> is_Some (programs st !! i)) ->
  is_Some (step fmt e st).
Proof.
  intros Hreach Hsel. apply reachable_session_inv in Hreach.
  destruct (find_program_is_Some _ _ (inv_selected st Hreach)) as [ap Hap].
  change (find_program (programs st) (selected st)) with (activeProgram st) in Hap.
  unfold step, issuePoints, redeem. rewrite Hap.
  destruct e as [n r1 r2| |i|v|now|pts now|f rnd|]; try by eexists.
  destruct (Hsel i eq_refl) as [p ->]. by eexists.
Qed.

Lemma connected_reachable : reachable fmt_plain connected.
Proof.
  apply (reachable_step fmt_plain (Connect demo "0.8f3a21c9d4e7" "0.5b7e1a02c3")
           initial (done_ connected) (reachable_initial fmt_plain) eq_refl).
Qed.

Lemma funded_reachable : reachable fmt_plain funded.
Proof.
  unfold funded.
  destruct (issuePoints fmt_plain 1700000000000 connected) as [r|] eqn:E.
  - apply (reachable_step fmt_plain (IssueClick 1700000000000) connected r
             connected_reachable E).
  - exact connected_reachable.
Qed.

Lemma reachable_run (fmt : number -> string) (es : list Event) (st st' : State) :
  reachable fmt st -> run fmt es st = Some st' -> reachable fmt st'.
Proof.
  revert st. induction es as [|e es IH]; simpl; intros st Hreach.
  - by intros [= <-].
  - destruct (step fmt e st) as [r|] eqn:Hstep; [|discriminate].
    apply IH. by eapply reachable_step.
Qed.

Lemma session_of_reachable (es : list Event) : reachable fmt_plain (session_of es).
Proof.
  unfold session_of.
  destruct (run fmt_plain es initial) as [st|] eqn:Hrun; simpl.
  - eapply reachable_run; [apply reachable_initial|exact Hrun].
  - apply reachable_initial.
Qed.

(** C6, as the code has it: the invariant fails.  The cents field stores
    [parseInt] of its text, which is NaN for the text [.5]; [Math.max(1,
    NaN)] is NaN, so the program is created with a NaN
    [fixedCentsPerPoint]; an issue in that program then stores NaN as its
    balance, in a reachable state, and NaN is not 0 or more. *)
Theorem nan_cents_reach_nan_balance :
  cents_field ".5" = nan /\
  reachable fmt_plain session_half_cent /\
  selected session_half_cent = "ph4lfc" /\
  balances session_half_cent !! "ph4lfc" = Some nan /\
  leb zero nan = false.
Proof.
  split; [reflexivity|]. split; [apply session_of_reachable|].
  vm_compute. repeat split.
Qed.

(** C10. In every state a session can reach, the selected id is the id of
    a program in the list, so [activeProgram] is defined, and the
    [programId] of every ledger row is the id of a program in the list, so
    the lookup made for that row when the ledger is drawn is defined. *)
Theorem references_always_resolve (fmt : number -> string) (st : State) :
  reachable fmt st ->
  known (programs st) (selected st) /\
  is_Some (activeProgram st) /\
  forall row : LedgerRow, row ∈ ledger st ->
    known (programs st) (programId row) /\
    is_Some (find_program (programs st) (programId row)).
Proof.
  intros Hreach. apply reachable_session_inv in Hreach.
  destruct Hreach as [Hs Hl].
  split; [exact Hs|]. split; [by apply find_program_is_Some|].
  intros row Hrow. eapply Forall_forall in Hl; [|exact Hrow].
  split; [exact Hl|]. by apply find_program_is_Some.
Qed.

Lemma references_always_resolve_witness :
  is_Some (activeProgram funded) /\
  forall row : LedgerRow, row ∈ ledger funded ->
    is_Some (find_program (programs funded) (programId row)).
Proof.
  destruct (references_always_resolve fmt_plain funded funded_reachable)
    as (_ & Ha & Hl).
  split; [exact Ha|]. intros row Hrow. exact (proj2 (Hl row Hrow)).
Defined.

(** ** Creating a program *)

(** C7, as the code has it: the clamp misses NaN.  With [.5] typed into
    the cents field the form holds NaN, the create handler accepts it, and
    the program it adds has a NaN [fixedCentsPerPoint], for which
    [1 <= fixedCentsPerPoint] is false. *)
Theorem create_stores_nan_cents (rnd : string) (st : State) :
  f_value form_half_cent = nan /\
  Math_max (num 1) nan = nan /\
  exists p : Program,
    alerted (createProgram form_half_cent rnd st) = None /\
    programs (next (createProgram form_half_cent rnd st)) = p :: programs st /\
    fixedCentsPerPoint p = nan /\
    leb (num 1) (fixedCentsPerPoint p) = false.
Proof.
  split; [reflexivity|]. split; [reflexivity|].
  eexists. repeat split.
Qed.

(** C8, as the code has it: the id is not fresh.  Two creates that read
    the same random draw give two programs the same id, in a reachable
    state. *)
Theorem create_id_not_fresh :
  reachable fmt_plain (next (createProgram form_owls "0.k3v9xq2m7" initial)) /\
  alerted (createProgram form_owls "0.k3v9xq2m7"
             (next (createProgram form_owls "0.k3v9xq2m7" initial))) = None /\
  known (programs (next (createProgram form_owls "0.k3v9xq2m7" initial)))
        (selected (next (createProgram form_owls "0.k3v9xq2m7"
                           (next (createProgram form_owls "0.k3v9xq2m7" initial))))) /\
  map id (programs (next (createProgram form_owls "0.k3v9xq2m7"
                            (next (createProgram form_owls "0.k3v9xq2m7" initial)))))
    = ["pk3v9x"; "pk3v9x"; "p1"; "p2"; "p3"].
Proof.
  split.
  { apply (reachable_step fmt_plain (CreateClick form_owls "0.k3v9xq2m7") initial
             _ (reachable_initial fmt_plain) eq_refl). }
  split; [reflexivity|]. split; [|reflexivity].
  unfold known. simpl. set_solver.
Qed.

(** ** Reset *)

(** C9. From any state, [resetAll] gives the three seed programs (Gotham
    Sports Rewards, Street Child Impact Cash, Kraken Club Cashback, in that
    order), selects the first of them, and empties the balances map and
    the ledger; it is what the reset button does in every state that
    renders. *)
Theorem reset_restores_seed (fmt : number -> string) (st : State) :
  programs (resetAll st) = DEMO_PROGRAMS /\
  map name (programs (resetAll st))
    = ["Gotham Sports Rewards"; "Street Child Impact Cash"; "Kraken Club Cashback"] /\
  length (programs (resetAll st)) = 3%nat /\
  Some (selected (resetAll st)) = id <$> head (programs (resetAll st)) /\
  activeProgram (resetAll st) = head DEMO_PROGRAMS /\
  balances (resetAll st) = ∅ /\
  ledger (resetAll st) = [] /\
  (is_Some (activeProgram st) ->
   step fmt ResetClick st = Some (done_ (resetAll st))).
Proof.
  repeat split.
  intros [ap Hap]. unfold step. by rewrite Hap.
Qed.

(** ** The books: balances against the ledger *)

Lemma books_inv_initial : books_inv initial.
Proof.
  split; simpl.
  - intros k. by rewrite lookup_empty.
  - intros k [q Hq]. by rewrite lookup_empty in Hq.
  - done.
Qed.

Lemma books_inv_issue (fmt : number -> string) (now : Z) (st : State) (r : Result) :
  session_inv st -> books_inv st ->
  issuePoints fmt now st = Some r -> books_inv (next r).
Proof.
  intros [Hs Hl] [Hrep Hkeys Hseed]. unfold issuePoints.
  destruct (activeProgram st) as [ap|]; [|discriminate].
  destruct (wallet st); [|intros [= <-]; by split].
  destruct (leb (purchaseUsd st) zero); [intros [= <-]; by split|].
  intros [= <-]. split; simpl; try assumption.
  - intros k. destruct (decide (selected st = k)) as [<-|Hne].
    + by rewrite lookup_insert_eq, String.eqb_refl, Hrep.
    + rewrite lookup_insert_ne by done.
      apply String.eqb_neq in Hne. by rewrite Hne.
  - intros k. rewrite lookup_insert. case_decide as Hk.
    + intros _. by rewrite <- Hk.
    + apply Hkeys.
Qed.

Lemma books_inv_redeem (pts : number) (now : Z) (st : State) (r : Result) :
  session_inv st -> books_inv st ->
  redeem pts now st = Some r -> books_inv (next r).
Proof.
  intros [Hs Hl] [Hrep Hkeys Hseed]. unfold redeem.
  destruct (activeProgram st) as [ap|]; [|discriminate].
  destruct (wallet st); [|intros [= <-]; by split].
  destruct (leb pts zero); [intros [= <-]; by split|].
  destruct (ltb (activeBalance st) pts); [intros [= <-]; by split|].
  intros [= <-]. split; simpl; try assumption.
  - intros k. destruct (decide (selected st = k)) as [<-|Hne].
    + rewrite lookup_insert_eq, String.eqb_refl. unfold activeBalance.
      by rewrite Hrep.
    + rewrite lookup_insert_ne by done.
      apply String.eqb_neq in Hne. by rewrite Hne.
  - intros k. rewrite lookup_insert. case_decide as Hk.
    + intros _. by rewrite <- Hk.
    + apply Hkeys.
Qed.

Lemma books_inv_create (f : Form) (rnd : string) (st : State) :
  books_inv st -> books_inv (next (createProgram f rnd st)).
Proof.
  intros [Hrep Hkeys Hseed]. unfold createProgram.
  destruct (falsy (f_name f) || falsy (f_symbol f)); [by split|].
  split; simpl; try assumption.
  - intros k Hk. unfold known. simpl. apply elem_of_cons. right. by apply Hkeys.
  - by apply suffix_cons_r.
Qed.

Lemma books_inv_step (fmt : number -> string) (e : Event) (st : State) (r : Result) :
  session_inv st -> books_inv st ->
  step fmt e st = Some r -> books_inv (next r).
Proof.
  intros Hinv Hbooks. unfold step.
  destruct (activeProgram st) as [ap|] eqn:Hap; [|discriminate].
  destruct e as [n r1 r2| |i|v|now|pts now|f rnd|].
  - intros [= <-]. destruct Hbooks. by split.
  - intros [= <-]. destruct Hbooks. by split.
  - destruct (programs st !! i) as [p|]; [|discriminate].
    intros [= <-]. destruct Hbooks. by split.
  - intros [= <-]. destruct Hbooks. by split.
  - by apply books_inv_issue.
  - by apply books_inv_redeem.
  - intros [= <-]. by apply books_inv_create.
  - intros [= <-]. split; simpl.
    + intros k. by rewrite lookup_empty.
    + intros k [q Hq]. by rewrite lookup_empty in Hq.
    + done.
Qed.

Lemma reachable_books_inv (fmt : number -> string) (st : State) :
  reachable fmt st -> books_inv st.
Proof.
  induction 1 as [|e st r Hreach IH Hstep].
  - exact books_inv_initial.
  - eapply books_inv_step; [|exact IH|exact Hstep].
    by eapply reachable_session_inv.
Qed.

(** X1. In every reachable state the balances map is what the ledger
    gives when its rows are applied oldest first with the handlers' own
    binary64 arithmetic: a program without rows has no entry, an ISSUE row
    adds its points to the previous entry (0 when there is none or it is
    falsy) and a REDEEM row subtracts them. *)
Theorem balances_replay_the_ledger (fmt : number -> string) (st : State) (k : string) :
  reachable fmt st ->
  balances st !! k = replay k (ledger st).
Proof.
  intros Hreach. exact (inv_replay st (reachable_books_inv fmt st Hreach) k).
Qed.

Lemma balances_replay_the_ledger_witness :
  balances session_two_programs !! "p2" = replay "p2" (ledger session_two_programs) /\
  balances session_two_programs !! "p2" = Some (num 6) /\
  length (ledger session_two_programs) = 3%nat.
Proof.
  split; [|split; vm_compute; reflexivity].
  apply (balances_replay_the_ledger fmt_plain session_two_programs "p2").
  apply session_of_reachable.
Defined.

(** X2. In every reachable state every key of the balances map is the id
    of a program in the list, so the balance it holds can be shown. *)
Theorem balance_keys_are_programs (fmt : number -> string) (st : State) (k : string) :
  reachable fmt st ->
  is_Some (balances st !! k) ->
  known (programs st) k /\ is_Some (find_program (programs st) k).
Proof.
  intros Hreach Hk.
  pose proof (inv_keys st (reachable_books_inv fmt st Hreach) k Hk) as Hknown.
  split; [exact Hknown|]. by apply find_program_is_Some.
Qed.

Lemma balance_keys_are_programs_witness :
  is_Some (balances session_two_programs !! "p1") /\
  is_Some (find_program (programs session_two_programs) "p1").
Proof.
  assert (H : is_Some (balances session_two_programs !! "p1"))
    by (vm_compute; by eexists).
  split; [exact H|].
  apply (balance_keys_are_programs fmt_plain session_two_programs "p1").
  - apply session_of_reachable.
  - exact H.
Defined.

(** ** What an event can and cannot change *)

(** X4. No event but the reset button removes or rewrites history: after
    any other event the old ledger is a suffix of the new one, which has at
    most one more row, and the old program list is a suffix of the new one.
    Balances and ledger change only on issue, redeem and reset, and the
    program list only on create and reset. *)
Theorem history_only_grows (fmt : number -> string) (e : Event) (st : State) (r : Result) :
  step fmt e st = Some r ->
  e <> ResetClick ->
  ledger st `suffix_of` ledger (next r) /\
  (length (ledger (next r)) <= S (length (ledger st)))%nat /\
  programs st `suffix_of` programs (next r) /\
  ((forall now, e <> IssueClick now) -> (forall pts now, e <> RedeemClick pts now) ->
   balances (next r) = balances st /\ ledger (next r) = ledger st) /\
  ((forall f rnd, e <> CreateClick f rnd) -> programs (next r) = programs st).
Proof.
  unfold step, issuePoints, redeem, createProgram.
  destruct (activeProgram st) as [ap|]; [|discriminate].
  destruct e as [n r1 r2| |i|v|now|pts now|f rnd|]; intros Hstep Hreset;
    try done.
  - injection Hstep as <-. simpl. repeat split; done || lia.
  - injection Hstep as <-. simpl. repeat split; done || lia.
  - destruct (programs st !! i); [|discriminate].
    injection Hstep as <-. simpl. repeat split; done || lia.
  - injection Hstep as <-. simpl. repeat split; done || lia.
  - destruct (wallet st); [destruct (leb (purchaseUsd st) zero)|];
      injection Hstep as <-; simpl;
      (split; [done || by apply suffix_cons_r|]);
      (split; [lia|]); (split; [done|]);
      (split; [intros H; by destruct (H now)|done]).
  - destruct (wallet st);
      [destruct (leb pts zero);
       [|destruct (ltb (activeBalance st) pts)]|];
      injection Hstep as <-; simpl;
      (split; [done || by apply suffix_cons_r|]);
      (split; [lia|]); (split; [done|]);
      (split; [intros _ H; by destruct (H pts now)|done]).
  - destruct (falsy (f_name f) || falsy (f_symbol f));
      injection Hstep as <-; simpl;
      (split; [done|]); (split; [lia|]);
      (split; [done || by apply suffix_cons_r|]);
      (split; [done|intros H; by destruct (H f rnd)]).
Qed.

Lemma history_only_grows_witness :
  programs initial `suffix_of`
    programs (next (createProgram form_owls "0.k3v9xq2m7" initial)) /\
  balances (next (createProgram form_owls "0.k3v9xq2m7" initial)) = balances initial /\
  ledger (next (createProgram form_owls "0.k3v9xq2m7" initial)) = ledger initial.
Proof.
  destruct (history_only_grows fmt_plain (CreateClick form_owls "0.k3v9xq2m7")
              initial (createProgram form_owls "0.k3v9xq2m7" initial) eq_refl)
    as (_ & _ & Hp & Hframe & _); [discriminate|].
  split; [exact Hp|]. apply Hframe; discriminate.
Defined.

(** X5. The three seed programs are never removed or edited: in every
    reachable state the program list ends with them, in their order. *)
Theorem seed_programs_persist (fmt : number -> string) (st : State) :
  reachable fmt st ->
  DEMO_PROGRAMS `suffix_of` programs st.
Proof.
  intros Hreach. exact (inv_seed st (reachable_books_inv fmt st Hreach)).
Qed.

Lemma seed_programs_persist_witness :
  DEMO_PROGRAMS `suffix_of` programs session_half_cent /\
  length (programs session_half_cent) = 4%nat.
Proof.
  split; [|reflexivity].
  apply (seed_programs_persist fmt_plain session_half_cent).
  apply session_of_reachable.
Defined.

(** X7. A reachable state renders, and every event the page offers in it
    has an outcome; the only event without one is the choice of an option
    the selector does not show. *)
Theorem reachable_states_take_every_event
    (fmt : number -> string) (e : Event) (st : State) :
  reachable fmt st ->
  (forall i : nat, e = SelectProgram i -> is_Some (programs st !! i)) ->
  exists r : Result, step fmt e st = Some r /\ reachable fmt (next r).
Proof.
  intros Hreach Hsel.
  destruct (reachable_step_defined fmt e st Hreach Hsel) as [r Hr].
  exists r. split; [exact Hr|]. by eapply reachable_step.
Qed.

Lemma reachable_states_take_every_event_witness :
  exists r : Result,
    step fmt_plain (SelectProgram 2) session_two_programs = Some r /\
    reachable fmt_plain (next r).
Proof.
  apply (reachable_states_take_every_event fmt_plain (SelectProgram 2)
           session_two_programs (session_of_reachable _)).
  intros i [= <-]. vm_compute. by eexists.
Defined.

(** ** The clamp of the create handler *)

Lemma Math_max_lower (a b : number) :
  is_nan a = false -> is_nan b = false -> a <= Math_max a b.
Proof.
  intros Ha Hb. unfold Math_max, leb, SFleb.
  destruct (SFcompare a b) as [[]|] eqn:E.
  - destruct a as [[]| | |]; try (by rewrite SFcompare_refl); by rewrite E.
  - by rewrite E.
  - by rewrite SFcompare_refl.
  - apply SFcompare_None in E as [E|E]; congruence.
Qed.

Lemma Math_max_cases (a b : number) :
  (a < b -> Math_max a b = b) /\ (b < a -> Math_max a b = a).
Proof.
  unfold Math_max, ltb, SFltb. rewrite (SFcompare_antisym a b).
  destruct (SFcompare a b) as [[]|]; simpl; split; congruence.
Qed.

(** X6. For a form with a name and a symbol whose three numbers are not
    NaN, the create handler stores a [fixedCentsPerPoint] of 1 or more and
    an [earnRatePct] and a [breakagePct] of 0 or more: a number below its
    minimum is replaced by the minimum, a number above it is kept. *)
Theorem create_clamps_numbers (f : Form) (rnd : string) (st : State) :
  f_name f <> EmptyString -> f_symbol f <> EmptyString ->
  is_nan (f_value f) = false -> is_nan (f_earn f) = false ->
  is_nan (f_breakage f) = false ->
  exists p : Program,
    programs (next (createProgram f rnd st)) = p :: programs st /\
    num 1 <= fixedCentsPerPoint p /\ num 0 <= earnRatePct p /\
    num 0 <= breakagePct p /\
    (f_value f < num 1 -> fixedCentsPerPoint p = num 1) /\
    (num 1 < f_value f -> fixedCentsPerPoint p = f_value f) /\
    (f_earn f < num 0 -> earnRatePct p = num 0) /\
    (num 0 < f_earn f -> earnRatePct p = f_earn f) /\
    (f_breakage f < num 0 -> breakagePct p = num 0) /\
    (num 0 < f_breakage f -> breakagePct p = f_breakage f).
Proof.
  intros Hn Hs Hv He Hb. unfold createProgram.
  destruct (falsy (f_name f)) eqn:En; [by apply falsy_iff in En|].
  destruct (falsy (f_symbol f)) eqn:Es; [by apply falsy_iff in Es|].
  simpl. eexists. split; [reflexivity|]. simpl.
  split; [by apply Math_max_lower|].
  split; [by apply Math_max_lower|].
  split; [by apply Math_max_lower|].
  split; [apply Math_max_cases|]. split; [apply Math_max_cases|].
  split; [apply Math_max_cases|]. split; [apply Math_max_cases|].
  split; apply Math_max_cases.
Qed.

Lemma create_clamps_numbers_witness :
  exists p : Program,
    programs (next (createProgram form_low_values "0.k3v9xq2m7" initial))
      = p :: DEMO_PROGRAMS /\
    fixedCentsPerPoint p = num 1 /\ earnRatePct p = num 0 /\ breakagePct p = num 0.
Proof.
  destruct (create_clamps_numbers form_low_values "0.k3v9xq2m7" initial)
    as (p & Hp & _ & _ & _ & Hc & _ & He & _ & Hb & _);
    try discriminate; try reflexivity.
  exists p. split; [exact Hp|].
  split; [apply Hc; reflexivity|].
  split; [apply He; reflexivity|apply Hb; reflexivity].
Defined.

(** X21. A successful create puts the new program in front of the list,
    which is otherwise unchanged and in the same order; the new program's
    id is the letter p followed by characters 2 to 6 of the random draw's
    base-36 text; that id becomes the selected id and the new program the
    active one. *)
Theorem create_prepends_and_selects (f : Form) (rnd : string) (st : State) :
  f_name f <> EmptyString -> f_symbol f <> EmptyString ->
  exists p : Program,
    alerted (createProgram f rnd st) = None /\
    programs (next (createProgram f rnd st)) = p :: programs st /\
    id p = "p" +:+ slice 2 7 rnd /\
    name p = f_name f /\ tokenSymbol p = f_symbol f /\
    selected (next (createProgram f rnd st)) = id p /\
    activeProgram (next (createProgram f rnd st)) = Some p.
Proof.
  intros Hn Hs. unfold createProgram.
  destruct (falsy (f_name f)) eqn:En; [by apply falsy_iff in En|].
  destruct (falsy (f_symbol f)) eqn:Es; [by apply falsy_iff in Es|].
  simpl. eexists. split; [reflexivity|]. split; [reflexivity|]. simpl.
  do 4 (split; [reflexivity|]).
  by apply find_program_head.
Qed.

Lemma create_prepends_and_selects_witness :
  exists p : Program,
    programs (next (createProgram form_owls "0.k3v9xq2m7" initial))
      = p :: DEMO_PROGRAMS /\
    id p = "pk3v9x" /\
    selected (next (createProgram form_owls "0.k3v9xq2m7" initial)) = "pk3v9x".
Proof.
  destruct (create_prepends_and_selects form_owls "0.k3v9xq2m7" initial)
    as (p & _ & Hp & Hid & _ & _ & Hsel & _).
  - discriminate.
  - discriminate.
  - exists p. split; [exact Hp|]. split; [exact Hid|].
    rewrite Hsel. exact Hid.
Defined.

(** ** Purchases that earn nothing *)

(** X8. A purchase above 0 whose points round to zero is still accepted:
    the ledger gets an ISSUE row of zero points and the selected program's
    balance is stored with the value it had (0 when it had none). *)
Theorem issue_of_tiny_purchase_adds_empty_row
    (fmt : number -> string) (now : Z) (st : State) (w : Wallet) (ap : Program) :
  wallet st = Some w ->
  activeProgram st = Some ap ->
  zero < purchaseUsd st ->
  is_zero (earnPts (purchaseUsd st) ap) = true ->
  exists (r : Result) (row : LedgerRow),
    issuePoints fmt now st = Some r /\ alerted r = None /\
    ledger (next r) = row :: ledger st /\
    type row = ISSUE /\ is_zero (amountPts row) = true /\
    balances (next r) !! selected st = Some (activeBalance st) /\
    activeBalance (next r) = activeBalance st.
Proof.
  intros Hw Hap Hpos Hz.
  rewrite (issuePoints_applied fmt now st w ap Hw Hap Hpos).
  eexists _, _. split; [reflexivity|]. simpl.
  split; [reflexivity|]. split; [reflexivity|]. split; [reflexivity|].
  split; [exact Hz|].
  unfold activeBalance. simpl. rewrite lookup_insert_eq.
  rewrite (or_zero_plus_zero _ _ Hz).
  split; [reflexivity|apply or_zero_idem].
Qed.

Lemma issue_of_tiny_purchase_adds_empty_row_witness :
  exists (r : Result) (row : LedgerRow),
    issuePoints fmt_plain 40 session_five_cents = Some r /\
    ledger (next r) = [row] /\ is_zero (amountPts row) = true /\
    balances (next r) !! "p1" = Some zero.
Proof.
  destruct (issue_of_tiny_purchase_adds_empty_row fmt_plain 40 session_five_cents
              (mkWallet "demo8f3a21c95b7e" demo)
              (mkProgram "p1" "Gotham Sports Rewards" "GOTH" (num 100) (num 5) (num 15))
              eq_refl eq_refl)
    as (r & row & Hr & _ & Hl & _ & Hz & Hb & _).
  - vm_compute. reflexivity.
  - vm_compute. reflexivity.
  - exists r, row. split; [exact Hr|]. split; [exact Hl|].
    split; [exact Hz|].
    refine (eq_trans Hb _). vm_compute. reflexivity.
Defined.

(** ** The mock wallet *)





(** ** Shortened addresses *)

Lemma short_of_long {U : Type} (ellipsis : U) (s : list U) :
  (10 < length s)%nat ->
  short ellipsis s = take 6 s ++ ellipsis :: drop (length s - 4)%nat s.
Proof.
  intros H. unfold short. apply Nat.leb_gt in H. by rewrite H.
Qed.

Lemma shortened_parts {U : Type} (ellipsis : U) (s d : list U) :
  (6 <= length s)%nat -> length d = 4%nat ->
  length (take 6 s ++ ellipsis :: d) = 11%nat /\
  take 6 (take 6 s ++ ellipsis :: d) = take 6 s /\
  (take 6 s ++ ellipsis :: d) !! 6%nat = Some ellipsis /\
  drop 7 (take 6 s ++ ellipsis :: d) = d.
Proof.
  intros Hs Hd.
  assert (Ht : length (take 6 s) = 6%nat) by (rewrite length_take; lia).
  split; [rewrite length_app, Ht; simpl; lia|].
  split; [apply take_app_length'; by rewrite Ht|].
  split; [rewrite lookup_app_r by lia; by rewrite Ht|].
  change (ellipsis :: d) with ([ellipsis] ++ d).
  rewrite app_assoc. apply drop_app_length'.
  rewrite length_app, Ht. reflexivity.
Qed.

(** X13. [short] returns a string of at most 10 code units unchanged, and
    a longer one as 11 code units: its first 6, the ellipsis, its last 4. *)
Theorem short_keeps_both_ends {U : Type} (ellipsis : U) (s : list U) :
  ((length s <= 10)%nat -> short ellipsis s = s) /\
  ((10 < length s)%nat ->
     length (short ellipsis s) = 11%nat /\
     take 6 (short ellipsis s) = take 6 s /\
     short ellipsis s !! 6%nat = Some ellipsis /\
     drop 7 (short ellipsis s) = drop (length s - 4)%nat s) /\
  (length (short ellipsis s) <= 11)%nat /\
  (length (short ellipsis s) <= length s)%nat.
Proof.
  destruct (decide (length s <= 10)%nat) as [Hle|Hgt].
  - assert (E : short ellipsis s = s).
    { unfold short. apply Nat.leb_le in Hle. by rewrite Hle. }
    rewrite E. split; [done|]. split; [intros; lia|]. split; lia.
  - apply Nat.nle_gt in Hgt.
    destruct (shortened_parts ellipsis s (drop (length s - 4)%nat s))
      as (Hl & Ht & He & Hd); [lia|rewrite length_drop; lia|].
    rewrite (short_of_long ellipsis s Hgt).
    split; [lia|]. split; [done|]. rewrite Hl. split; lia.
Qed.

Lemma short_keeps_both_ends_witness :
  short 8230%Z [48; 120; 56; 102; 51; 97; 50; 49; 99; 57; 53; 98; 55; 101]%Z
    = [48; 120; 56; 102; 51; 97; 8230; 53; 98; 55; 101]%Z /\
  length (short 8230%Z
            [48; 120; 56; 102; 51; 97; 50; 49; 99; 57; 53; 98; 55; 101]%Z)
    = 11%nat.
Proof.
  split; [reflexivity|].
  destruct (short_keeps_both_ends 8230%Z
              [48; 120; 56; 102; 51; 97; 50; 49; 99; 57; 53; 98; 55; 101]%Z)
    as (_ & Hlong & _).
  destruct Hlong as (Hl & _); [simpl; lia|]. exact Hl.
Defined.

(** X14. Shortening twice is shortening once. *)
Theorem short_is_idempotent {U : Type} (ellipsis : U) (s : list U) :
  short ellipsis (short ellipsis s) = short ellipsis s.
Proof.
  destruct (decide (length s <= 10)%nat) as [Hle|Hgt].
  - unfold short at 2. apply Nat.leb_le in Hle. by rewrite Hle.
  - apply Nat.nle_gt in Hgt.
    destruct (shortened_parts ellipsis s (drop (length s - 4)%nat s))
      as (Hl & Ht & He & Hd); [lia|rewrite length_drop; lia|].
    rewrite (short_of_long ellipsis s Hgt).
    rewrite short_of_long by lia.
    rewrite Ht, Hl. simpl. f_equal. f_equal. exact Hd.
Qed.

(** ** The program form *)

(** X15. A second click on the create button, with the form left as the
    first click left it, never adds a program: after a rejected click the
    form is unchanged and is rejected again, after an accepted one the form
    is back to its blank defaults, whose empty name is rejected. *)
Theorem second_create_click_adds_nothing
    (f : Form) (rnd rnd' : string) (st : State) :
  let first := programFormClick f rnd st in
  let second := programFormClick (snd first) rnd' (next (fst first)) in
  (alerted (fst first) = None -> snd first = form_default) /\
  (is_Some (alerted (fst first)) -> snd first = f) /\
  fst second = alert (next (fst first)) "Name & symbol required" /\
  snd second = snd first /\
  (length (programs (next (fst second))) <= S (length (programs st)))%nat.
Proof.
  unfold programFormClick, createProgram. simpl.
  destruct (falsy (f_name f) || falsy (f_symbol f)) eqn:E; simpl.
  - rewrite E. simpl. repeat split; try done; try lia.
  - repeat split; try done; try lia; try (intros [msg Hmsg]; discriminate).
Qed.

(** ** Selecting a program *)

Lemma find_program_NoDup (ps : list Program) (i : nat) (p : Program) :
  NoDup (map id ps) -> ps !! i = Some p -> find_program ps (id p) = Some p.
Proof.
  unfold find_program. revert i. induction ps as [|q ps IH]; intros i Hnd Hi.
  - by rewrite lookup_nil in Hi.
  - simpl in Hnd. apply NoDup_cons in Hnd as [Hq Hnd]. simpl.
    destruct i as [|i]; simpl in Hi.
    + injection Hi as ->. by rewrite String.eqb_refl.
    + destruct (String.eqb (id q) (id p)) eqn:E.
      * apply String.eqb_eq in E. exfalso. apply Hq. rewrite E.
        apply list_elem_of_fmap. exists p. split; [done|].
        apply list_elem_of_lookup. by exists i.
      * by apply (IH i).
Qed.

(** X16. Choosing the [i]-th option of the program selector, in a state
    that renders, selects that program's id and leaves a state that renders
    with an active program of that id; when the ids of the list are
    pairwise distinct the active program is the chosen one.  Nothing else
    of the state changes. *)
Theorem select_activates_option
    (fmt : number -> string) (i : nat) (st : State) (p : Program) :
  is_Some (activeProgram st) ->
  programs st !! i = Some p ->
  exists r : Result,
    step fmt (SelectProgram i) st = Some r /\ alerted r = None /\
    selected (next r) = id p /\
    (exists p' : Program, activeProgram (next r) = Some p' /\ id p' = id p) /\
    (NoDup (map id (programs st)) -> activeProgram (next r) = Some p) /\
    wallet (next r) = wallet st /\ programs (next r) = programs st /\
    purchaseUsd (next r) = purchaseUsd st /\
    balances (next r) = balances st /\ ledger (next r) = ledger st.
Proof.
  intros [ap Hap] Hi. unfold step. rewrite Hap, Hi.
  eexists. split; [reflexivity|]. simpl. split; [reflexivity|].
  split; [reflexivity|]. split; [|split; [|done]].
  - assert (Hk : id p ∈ map id (programs st)).
    { apply list_elem_of_fmap. exists p. split; [done|].
      apply list_elem_of_lookup. by exists i. }
    destruct (find_program_is_Some _ _ Hk) as [p' Hp'].
    exists p'. split; [exact Hp'|]. by apply find_program_id in Hp' as [? _].
  - intros Hnd. by apply (find_program_NoDup _ i).
Qed.

Lemma select_activates_option_witness :
  exists r : Result,
    step fmt_plain (SelectProgram 2) connected = Some r /\
    activeProgram (next r)
      = Some (mkProgram "p3" "Kraken Club Cashback" "KRAK" (num 100) (num 4) (num 10)).
Proof.
  destruct (select_activates_option fmt_plain 2 connected
              (mkProgram "p3" "Kraken Club Cashback" "KRAK" (num 100) (num 4) (num 10)))
    as (r & Hr & _ & _ & _ & Hnd & _).
  - by eexists.
  - reflexivity.
  - exists r. split; [exact Hr|]. apply Hnd.
    by apply (bool_decide_unpack _).
Defined.

(** ** Without a wallet *)

Lemma step_without_wallet (fmt : number -> string) (e : Event) (st : State) (r : Result) :
  wallet st = None ->
  (forall n r1 r2, e <> Connect n r1 r2) ->
  step fmt e st = Some r ->
  wallet (next r) = None /\
  (e <> ResetClick -> balances (next r) = balances st /\ ledger (next r) = ledger st) /\
  ((balances (next r) = balances st /\ ledger (next r) = ledger st) \/
   (balances (next r) = ∅ /\ ledger (next r) = [])).
Proof.
  intros Hw Hne. unfold step, issuePoints, redeem, createProgram.
  destruct (activeProgram st) as [ap|]; [|discriminate].
  rewrite Hw.
  destruct e as [n r1 r2| |i|v|now|pts now|f rnd|];
    try (intros [= <-]; simpl; by auto).
  - by destruct (Hne n r1 r2).
  - destruct (programs st !! i); [|discriminate]. intros [= <-]. simpl. auto.
  - intros [= <-]. destruct (falsy (f_name f) || falsy (f_symbol f)); simpl; auto.
  - intros [= <-]. simpl. split; [done|]. split; [done|]. by right.
Qed.

(** X18. While no wallet is connected nothing is issued or redeemed: from
    a state without a wallet, any sequence of events that has no connect
    in it ends without a wallet, with the balances and the ledger it
    started from, or with both empty when a reset was among the events. *)
Theorem nothing_moves_without_a_wallet
    (fmt : number -> string) (es : list Event) (st st' : State) :
  wallet st = None ->
  Forall (fun e => forall n r1 r2, e <> Connect n r1 r2) es ->
  run fmt es st = Some st' ->
  wallet st' = None /\
  ((balances st' = balances st /\ ledger st' = ledger st) \/
   (balances st' = ∅ /\ ledger st' = [])) /\
  (ResetClick ∉ es -> balances st' = balances st /\ ledger st' = ledger st).
Proof.
  revert st. induction es as [|e es IH]; intros st Hw Hes; simpl.
  - intros [= <-]. auto.
  - apply Forall_cons in Hes as [He Hes].
    destruct (step fmt e st) as [r|] eqn:Hstep; [|discriminate].
    destruct (step_without_wallet fmt e st r Hw He Hstep) as (Hw1 & Hnoreset & Hkeep).
    intros Hrun. destruct (IH (next r) Hw1 Hes Hrun) as (Hw' & Hrest & Hrest').
    split; [exact Hw'|]. split.
    + destruct Hrest as [[Hb Hl]|Hempty]; [|by right].
      destruct Hkeep as [[Hb1 Hl1]|[Hb1 Hl1]].
      * left. by rewrite Hb, Hl.
      * right. by rewrite Hb, Hl.
    + intros Hnot. apply not_elem_of_cons in Hnot as [Hne Hnot].
      destruct (Hrest' Hnot) as [Hb Hl].
      destruct Hnoreset as [Hb1 Hl1]; [congruence|].
      by rewrite Hb, Hl.
Qed.

Lemma nothing_moves_without_a_wallet_witness :
  exists st' : State,
    run fmt_plain [SetPurchase (Some (num 75)); IssueClick 80;
                   SelectProgram 1; RedeemClick (num 1) 90] session_disconnected
      = Some st' /\
    wallet st' = None /\
    balances st' = balances session_disconnected /\
    ledger st' = ledger session_disconnected.
Proof.
  pose proof (nothing_moves_without_a_wallet fmt_plain
                [SetPurchase (Some (num 75)); IssueClick 80; SelectProgram 1;
                 RedeemClick (num 1) 90]
                session_disconnected) as H.
  destruct (run fmt_plain _ session_disconnected) as [st'|] eqn:E;
    [|vm_compute in E; discriminate E].
  exists st'. split; [reflexivity|].
  destruct (H st') as (Hw & _ & Hkeep).
  - vm_compute. reflexivity.
  - repeat constructor; intros; discriminate.
  - reflexivity.
  - split; [exact Hw|]. apply Hkeep. intros Hin.
    repeat (apply elem_of_cons in Hin as [Hin|Hin]; [discriminate Hin|]).
    by apply elem_of_nil in Hin.
Defined.

(** ** New programs and the ids in use *)

(** X19. In a reachable state, a program created under an id that is not
    in use becomes the active program with a balance of 0 and no ledger
    row of its own. *)
Theorem created_program_starts_empty
    (fmt : number -> string) (f : Form) (rnd : string) (st : State) :
  reachable fmt st ->
  f_name f <> EmptyString -> f_symbol f <> EmptyString ->
  ~ known (programs st) ("p" +:+ slice 2 7 rnd) ->
  selected (next (createProgram f rnd st)) = "p" +:+ slice 2 7 rnd /\
  balances (next (createProgram f rnd st)) !! ("p" +:+ slice 2 7 rnd) = None /\
  activeBalance (next (createProgram f rnd st)) = zero /\
  (forall row : LedgerRow, row ∈ ledger (next (createProgram f rnd st)) ->
     programId row <> "p" +:+ slice 2 7 rnd).
Proof.
  intros Hreach Hn Hs Hfresh.
  pose proof (inv_keys st (reachable_books_inv fmt st Hreach)) as Hkeys.
  pose proof (inv_ledger st (reachable_session_inv fmt st Hreach)) as Hrows.
  unfold createProgram.
  destruct (falsy (f_name f)) eqn:En; [by apply falsy_iff in En|].
  destruct (falsy (f_symbol f)) eqn:Es; [by apply falsy_iff in Es|].
  simpl.
  assert (Hnone : balances st !! ("p" +:+ slice 2 7 rnd) = None).
  { destruct (balances st !! ("p" +:+ slice 2 7 rnd)) as [q|] eqn:E; [|done].
    exfalso. apply Hfresh, Hkeys. by eexists. }
  split; [reflexivity|]. split; [exact Hnone|].
  split; [unfold activeBalance; simpl; by rewrite Hnone|].
  intros row Hrow Heq. eapply Forall_forall in Hrows; [|exact Hrow].
  apply Hfresh. by rewrite <- Heq.
Qed.

Lemma created_program_starts_empty_witness :
  selected (next (createProgram form_owls "0.k3v9xq2m7" session_two_programs))
    = "pk3v9x" /\
  activeBalance (next (createProgram form_owls "0.k3v9xq2m7" session_two_programs))
    = zero.
Proof.
  destruct (created_program_starts_empty fmt_plain form_owls "0.k3v9xq2m7"
              session_two_programs (session_of_reachable _))
    as (Hs & _ & Hb & _).
  - discriminate.
  - discriminate.
  - unfold known. intros H. apply list_elem_of_In in H. vm_compute in H.
    repeat (destruct H as [H|H]; [discriminate H|]). exact H.
  - split; [exact Hs|exact Hb].
Defined.

(** X20. A program created under an id that is already in use takes the
    place of the older program of that id: choosing the older program's
    option in the selector makes the new program the active one, and the
    new program starts with the balance recorded under that id. *)
Theorem reused_id_shadows_older_program
    (fmt : number -> string) (f : Form) (rnd : string) (st : State)
    (i : nat) (q : Program) :
  f_name f <> EmptyString -> f_symbol f <> EmptyString ->
  programs st !! i = Some q ->
  id q = "p" +:+ slice 2 7 rnd ->
  exists (r : Result) (pnew : Program),
    programs (next (createProgram f rnd st)) = pnew :: programs st /\
    name pnew = f_name f /\
    activeBalance (next (createProgram f rnd st)) = or_zero (balances st !! id q) /\
    step fmt (SelectProgram (S i)) (next (createProgram f rnd st)) = Some r /\
    selected (next r) = id q /\
    activeProgram (next r) = Some pnew.
Proof.
  intros Hn Hs Hi Hid. unfold createProgram.
  destruct (falsy (f_name f)) eqn:En; [by apply falsy_iff in En|].
  destruct (falsy (f_symbol f)) eqn:Es; [by apply falsy_iff in Es|].
  cbn [orb next done_].
  set (d := mkProgramDef _ _ _ _ _).
  set (pnew := mkProgram ("p" +:+ slice 2 7 rnd) (d_name d) (d_tokenSymbol d)
                 (d_fixedCentsPerPoint d) (d_earnRatePct d) (d_breakagePct d)).
  assert (Hact : activeProgram (addProgram d rnd st) = Some pnew)
    by (by apply find_program_head).
  unfold step. rewrite Hact.
  change (programs (addProgram d rnd st) !! S i) with (programs st !! i).
  rewrite Hi.
  exists (done_ (mkState (wallet st) (pnew :: programs st) (id q) (purchaseUsd st)
                   (balances st) (ledger st))), pnew.
  split; [reflexivity|]. split; [reflexivity|].
  split; [unfold activeBalance; cbn [selected balances addProgram]; by rewrite Hid|].
  split; [reflexivity|]. split; [reflexivity|].
  by apply find_program_head.
Qed.

Lemma reused_id_shadows_older_program_witness :
  map name (programs session_same_draw)
    = ["Early Birds"; "Night Owls"; "Gotham Sports Rewards";
       "Street Child Impact Cash"; "Kraken Club Cashback"] /\
  exists (r : Result) (pnew : Program),
    step fmt_plain (SelectProgram 1) session_same_draw = Some r /\
    activeProgram (next r) = Some pnew /\ name pnew = "Early Birds".
Proof.
  split; [reflexivity|].
  destruct (reused_id_shadows_older_program fmt_plain
              (mkForm "Early Birds" "BIRD" (num 25) (num 1) (num 0)) "0.k3v9xq2m7"
              (session_of [CreateClick form_owls "0.k3v9xq2m7"])
              0 (mkProgram "pk3v9x" "Night Owls" "OWL" (num 50) (num 2) (num 5)))
    as (r & pnew & _ & Hname & _ & Hstep & _ & Hact).
  - discriminate.
  - discriminate.
  - reflexivity.
  - reflexivity.
  - exists r, pnew. split; [exact Hstep|]. split; [exact Hact|exact Hname].
Defined.
